(** * chat_with_csv/agent_tools.py: the agent's tools

    A shallow embedding of [src/chat_with_csv/agent_tools.py] and the
    properties its specification states about it.

    - [PyStr]: Python [str] values as sequences of Unicode code points,
      with the built-in methods the module calls ([lower], [in],
      [startswith], [endswith], slicing, [strip], [join], integer
      formatting).
    - [Tools]: the data the tools work on (data frame, session state,
      database file, resource cache) and the tools themselves.
    - the theorems, one per property of the specification.

    Output written with [print] is not part of the model. *)

From Stdlib Require Import List NArith ZArith Bool Lia.
From Stdlib Require Import Ascii String DecimalString DecimalNat.
Import ListNotations.

(* ------------------------------------------------------------------ *)
(** * Python strings *)

Module PyStr.

(** A [str] is a sequence of Unicode code points. *)
Definition codepoint := N.
Definition str := list codepoint.

(** An ASCII literal of the source, as a [str]. *)
Definition lit (s : string) : str :=
  map N_of_ascii (list_ascii_of_string s).

Definition newline : str := [10%N].

(** [a == b] *)
Fixpoint str_eqb (a b : str) : bool :=
  match a, b with
  | [], [] => true
  | x :: a', y :: b' => (x =? y)%N && str_eqb a' b'
  | _, _ => false
  end.

(** [s.startswith(prefix)] *)
Fixpoint startswith (s prefix : str) : bool :=
  match prefix, s with
  | [], _ => true
  | _ :: _, [] => false
  | p :: prefix', c :: s' => (c =? p)%N && startswith s' prefix'
  end.

(** [s.endswith(suffix)] *)
Definition endswith (s suffix : str) : bool :=
  startswith (rev s) (rev suffix).

(** [sub in s] *)
Fixpoint str_in (sub s : str) : bool :=
  startswith s sub ||
  match s with
  | [] => false
  | _ :: s' => str_in sub s'
  end.

(** Slice bounds: a negative bound counts from the end, and every bound
    is clamped to [0 .. len]. *)
Definition slice_bound (len i : Z) : Z :=
  if (i <? 0)%Z then Z.max 0 (i + len) else Z.min i len.

(** [s[i:j]] *)
Definition slice (s : str) (i j : Z) : str :=
  let len := Z.of_nat (List.length s) in
  let lo := slice_bound len i in
  let hi := slice_bound len j in
  firstn (Z.to_nat (hi - lo)) (skipn (Z.to_nat lo) s).

(** [c.isspace()]: the code points CPython treats as whitespace. *)
Definition isspace (c : codepoint) : bool :=
  ((9 <=? c) && (c <=? 13) || (28 <=? c) && (c <=? 32)
   || (c =? 133) || (c =? 160) || (c =? 5760)
   || (8192 <=? c) && (c <=? 8202)
   || (c =? 8232) || (c =? 8233) || (c =? 8239) || (c =? 8287)
   || (c =? 12288))%N.

(** [s.lstrip()], [s.rstrip()], [s.strip()] *)
Fixpoint lstrip (s : str) : str :=
  match s with
  | c :: s' => if isspace c then lstrip s' else s
  | [] => []
  end.

Definition rstrip (s : str) : str := rev (lstrip (rev s)).

Definition strip (s : str) : str := rstrip (lstrip s).

(** [s.lower()], code point by code point.  The table is CPython's on
    U+0000..U+00FF and on the two code points above U+007F whose lower
    case has an ASCII letter (U+0130, U+212A); the other code points,
    whose lower case has no ASCII letter, are kept as they are.  So
    [lower s] is [s.lower()] for [s] over U+0000..U+00FF; for any [s],
    an ASCII word is found in [lower s] exactly when it is found in
    [s.lower()], which is all the tools ask of it.  Statements about
    lower-case forms as such are made for strings over U+0000..U+00FF. *)
Definition lower_cp (c : codepoint) : list codepoint :=
  (if (65 <=? c) && (c <=? 90) then [c + 32]
   else if (192 <=? c) && (c <=? 222) && negb (c =? 215) then [c + 32]
   else if c =? 304 then [105; 775]
   else if c =? 8490 then [107]
   else [c])%N.

Definition lower (s : str) : str := flat_map lower_cp s.





(** Folding the case of the ASCII letters and of nothing else. *)
Definition fold_ascii (c : codepoint) : codepoint :=
  (if (65 <=? c) && (c <=? 90) then c + 32 else c)%N.

(** [sep.join(items)] *)
Fixpoint join (sep : str) (items : list str) : str :=
  match items with
  | [] => []
  | [x] => x
  | x :: rest => x ++ sep ++ join sep rest
  end.

(** [str(n)] for a count [n]: decimal digits, no sign, no leading zero. *)
Definition format_int (n : nat) : str :=
  lit (NilEmpty.string_of_uint (Nat.to_uint n)).

(** Reading a decimal numeral back (used to state what [format_int]
    prints). *)
Definition digit_value (c : codepoint) : option nat :=
  if ((48 <=? c) && (c <=? 57))%N then Some (N.to_nat (c - 48)) else None.

Fixpoint parse_digits (acc : nat) (s : str) : option nat :=
  match s with
  | [] => Some acc
  | c :: s' =>
      match digit_value c with
      | Some d => parse_digits (10 * acc + d) s'
      | None => None
      end
  end.

Definition parse_int (s : str) : option nat :=
  match s with
  | [] => None
  | _ => parse_digits 0 s
  end.

End PyStr.

(* ------------------------------------------------------------------ *)
(** * Results, data frames, session state, database *)

Module Tools.
Import PyStr.

(** A call either returns a value or raises. *)
Inductive exn : Type :=
  | AttributeError    (* attribute access on [None] *)
  | TypeError
  | ValueError        (* pandas *)
  | OperationalError  (* the SQL engine *)
  | LoadError.        (* the CSV loader *)

Inductive outcome (A : Type) : Type :=
  | Returned (a : A)
  | Raised (e : exn).
Arguments Returned {A} a.
Arguments Raised {A} e.

Definition raises {A} (o : outcome A) : bool :=
  match o with Returned _ => false | Raised _ => true end.

(** ** pandas.DataFrame *)

Inductive cell : Type :=
  | CInt (z : Z)
  | CText (s : str)
  | CFloat (repr : str)
  | CNaN.

Module DataFrame.

Record t : Type := mk {
  columns : list str;          (* column labels, in order *)
  rows : list (list cell)      (* one list of cells per row *)
}.

(** [df.shape] *)
Definition shape (df : t) : nat * nat :=
  (List.length (rows df), List.length (columns df)).

End DataFrame.

(** The two pandas renderings the module calls; their text is pandas'
    business.  [df.describe()] raises on a frame it cannot describe. *)
Class Pandas : Type := {
  describe_to_html : DataFrame.t -> outcome str;   (* df.describe().to_html() *)
  head_to_string : DataFrame.t -> str              (* df.head().to_string() *)
}.

(** ** sqlalchemy engine and the database file [db.db] *)

Record Engine : Type := mkEngine {
  engine_id : nat;      (* object identity *)
  engine_url : str
}.

Record Table : Type := mkTable {
  table_columns : list str;
  table_rows : list (list cell)
}.

(** The tables of the file, by name.  SQLite holds no two tables whose
    names differ in the case of ASCII letters only; a list that has
    such names is treated like SQLite treats one name in several
    spellings: a lookup finds the first, a drop removes them all. *)
Definition Database := list (str * Table).

(** SQLite takes two table names for the same when they differ in the
    case of ASCII letters only: [DB] and [Db] name the table [db]. *)
Definition name_eqb (a b : str) : bool :=
  str_eqb (map fold_ascii a) (map fold_ascii b).

Definition find_table (name : str) (db : Database) : option Table :=
  option_map snd (find (fun e => name_eqb (fst e) name) db).

(** [DROP TABLE IF EXISTS name] *)
Definition drop_table_if_exists (name : str) (db : Database) : Database :=
  filter (fun e => negb (name_eqb (fst e) name)) db.

(** What pandas and SQLite make of a frame they are asked to write as a
    new table.  They store it, or they refuse it (two column labels that
    SQLite takes for the same name, a column of unsigned 64-bit
    integers, a frame without columns, ...): then the call raises, and
    what was written of the table before, if anything, is left behind. *)
Inductive verdict : Type :=
  | Stored
  | Refused (e : exn) (left_behind : option Table).

(** [df.to_sql(name, engine, index=False)]: [if_exists] keeps its default
    ['fail'], so an existing table raises; the index is not written.
    The result is the outcome of the call and the file after it. *)
Definition to_sql (v : verdict) (name : str) (df : DataFrame.t)
           (db : Database) : outcome unit * Database :=
  match find_table name db with
  | Some _ => (Raised ValueError, db)
  | None =>
      match v with
      | Stored =>
          (Returned tt,
           db ++ [(name, mkTable (DataFrame.columns df) (DataFrame.rows df))])
      | Refused e (Some t) => (Raised e, db ++ [(name, t)])
      | Refused e None => (Raised e, db)
      end
  end.

(** [SELECT COUNT( * ) FROM name] *)
Definition select_count (name : str) (db : Database) : outcome nat :=
  match find_table name db with
  | Some t => Returned (List.length (table_rows t))
  | None => Raised OperationalError
  end.

(** ** streamlit: session state and resource cache *)

(** [st.session_state]: the three slots the module uses.  [None] is
    Python's [None], the value a slot has before it is filled (line 28
    compares the engine slot with [None]). *)
Module SessionState.

Record t : Type := mk {
  engine : option Engine;
  df : option DataFrame.t;
  columns : option (list str)
}.

(** The slots of a session that has just started. *)
Definition initial : t := mk None None None.

End SessionState.

(** What the module's calls leave behind outside the session state. *)
Inductive event : Type :=
  | LoadCsv
  | CreateEngine (id : nat)
  | DropTable (name : str)
  | InsertTable (name : str) (nrows : nat).

Definition is_load (e : event) : bool :=
  match e with LoadCsv => true | _ => false end.
Definition is_drop (e : event) : bool :=
  match e with DropTable _ => true | _ => false end.
Definition is_insert (e : event) : bool :=
  match e with InsertTable _ _ => true | _ => false end.

(** The server process as the module sees it. *)
Record World : Type := mkWorld {
  session_state : SessionState.t;   (* of the running session *)
  resource_cache : option Engine;   (* st.cache_resource's entry for
                                       get_sqlite_engine(); process wide *)
  database : Database;              (* the file db.db *)
  csv : outcome DataFrame.t;        (* what loading the file at Tools.PATH gives *)
  engines_created : nat;
  trace : list event;               (* oldest first *)
  storing : DataFrame.t -> verdict  (* what pandas and SQLite make of a
                                       frame given to df.to_sql *)
}.

(** A state-and-exception monad over [World]: a raise keeps the state
    reached so far. *)
Definition M (A : Type) : Type := World -> outcome A * World.

Definition ret {A} (a : A) : M A := fun w => (Returned a, w).

Definition bind {A B} (m : M A) (k : A -> M B) : M B :=
  fun w =>
    match m w with
    | (Returned a, w') => k a w'
    | (Raised e, w') => (Raised e, w')
    end.

Declare Scope py_scope.
Delimit Scope py_scope with py.
Notation "x <- m ;; k" := (bind m (fun x => k))
  (at level 61, m at next level, right associativity) : py_scope.
Notation "m ;;; k" := (bind m (fun _ => k))
  (at level 61, right associativity) : py_scope.
Local Open Scope py_scope.

Definition get_session : M SessionState.t :=
  fun w => (Returned (session_state w), w).

Definition put_session (s : SessionState.t) : M unit :=
  fun w => (Returned tt,
            mkWorld s (resource_cache w) (database w) (csv w)
                    (engines_created w) (trace w) (storing w)).

Definition modify_session (f : SessionState.t -> SessionState.t) : M unit :=
  s <- get_session ;; put_session (f s).

Definition emit (e : event) : M unit :=
  fun w => (Returned tt,
            mkWorld (session_state w) (resource_cache w) (database w) (csv w)
                    (engines_created w) (trace w ++ [e]) (storing w)).

Definition set_engine (e : Engine) : M unit :=
  modify_session (fun s =>
    SessionState.mk (Some e) (SessionState.df s) (SessionState.columns s)).

Definition set_df (d : DataFrame.t) : M unit :=
  modify_session (fun s =>
    SessionState.mk (SessionState.engine s) (Some d) (SessionState.columns s)).

Definition set_columns (c : list str) : M unit :=
  modify_session (fun s =>
    SessionState.mk (SessionState.engine s) (SessionState.df s) (Some c)).

(** Modelled from the spec: [Tools.load_csv_files] of [src/Tools.py],
    which is not among the sources.  The spec has it load the CSV into an
    in-memory table, a failure being fatal; here it hands out [csv] and
    touches nothing else. *)
Definition load_csv_files : M DataFrame.t :=
  emit LoadCsv ;;;
  fun w => (csv w, w).

(** [create_engine(url)]: a new engine object. *)
Definition create_engine (url : str) : M Engine :=
  fun w =>
    let e := mkEngine (engines_created w) url in
    (Returned e,
     mkWorld (session_state w) (resource_cache w) (database w) (csv w)
             (S (engines_created w)) (trace w ++ [CreateEngine (engine_id e)])
             (storing w)).

Definition put_database (db : Database) : M unit :=
  fun w => (Returned tt,
            mkWorld (session_state w) (resource_cache w) db (csv w)
                    (engines_created w) (trace w) (storing w)).

(** [connection.execute(text('DROP TABLE IF EXISTS name'))] *)
Definition execute_drop (name : str) : M unit :=
  emit (DropTable name) ;;;
  fun w => put_database (drop_table_if_exists name (database w)) w.

(** [df.to_sql(name, engine, index=False)] on the world's file. *)
Definition df_to_sql (d : DataFrame.t) (name : str) (_ : Engine) : M unit :=
  fun w =>
    match to_sql (storing w d) name d (database w) with
    | (Returned _, db') =>
        (emit (InsertTable name (List.length (DataFrame.rows d))) ;;;
         put_database db') w
    | (Raised e, db') => (Raised e, snd (put_database db' w))
    end.

Definition db_name : str := lit "db".
Definition db_url : str := lit "sqlite:///db.db".

(** Lines 27-49, the body of [get_sqlite_engine]. *)
Definition get_sqlite_engine_body : M Engine :=
  s <- get_session ;;
  match SessionState.engine s with
  | None =>
      df <- load_csv_files ;;
      set_df df ;;;
      set_columns (DataFrame.columns df) ;;;
      engine <- create_engine db_url ;;
      execute_drop db_name ;;;
      execute_drop db_name ;;;
      df_to_sql df db_name engine ;;;
      set_engine engine ;;;
      ret engine
  | Some engine => ret engine
  end.

(** Line 14, [@st.cache_resource]: the first call that returns stores its
    result for the whole process; every later call, from any session,
    gets that result without the body being run. *)
Definition cache_resource (body : M Engine) : M Engine :=
  fun w =>
    match resource_cache w with
    | Some e => (Returned e, w)
    | None =>
        match body w with
        | (Returned e, w') =>
            (Returned e,
             mkWorld (session_state w') (Some e) (database w') (csv w')
                     (engines_created w') (trace w') (storing w'))
        | (Raised x, w') => (Raised x, w')
        end
    end.

Definition get_sqlite_engine : M Engine :=
  cache_resource get_sqlite_engine_body.

(** A browser session starts in the same server process: its session
    state is new, everything else stays. *)
Definition new_session (w : World) : World :=
  mkWorld SessionState.initial (resource_cache w) (database w) (csv w)
          (engines_created w) (trace w) (storing w).

(** [n] calls in a row; the result of the last one. *)
Fixpoint call_times (n : nat) (w : World) : outcome Engine * World :=
  match n with
  | O => get_sqlite_engine w
  | S n' =>
      match get_sqlite_engine w with
      | (Returned _, w') => call_times n' w'
      | (Raised e, w') => (Raised e, w')
      end
  end.

(** ** The tools *)

Definition fence_open : str := lit "```sql".
Definition fence_close : str := lit "```".

(** Lines 51-65. *)
Definition remove_markdown_code_block (sql_code : str) : str :=
  if startswith sql_code fence_open && endswith sql_code fence_close then
    strip (slice sql_code 6 (-3))
  else
    sql_code.

Definition apology : str :=
  lit "I'm sorry, I couldn't understand your request. Could you please rephrase or provide more information?".

(** Lines 132-143. *)
Definition handle_unexpected_query (query : str) : outcome str :=
  Returned apology.

Definition clarification : str :=
  lit "I'm sorry, I couldn't understand your request about the dataset. Could you please be more specific? You can ask about the dataset's description, statistics, columns, shape, or a sample of the data.".

(** Using an object read from a slot: [None] has none of the attributes. *)
Definition deref {A} (o : option A) : outcome A :=
  match o with
  | Some a => Returned a
  | None => Raised AttributeError
  end.

Definition obind {A B} (o : outcome A) (k : A -> outcome B) : outcome B :=
  match o with
  | Returned a => k a
  | Raised e => Raised e
  end.

Section Describe.
Context {pandas : Pandas}.

(** Lines 172-192. *)
Definition describe_dataset (s : SessionState.t) (query : str) : outcome str :=
  let df := SessionState.df s in
  if str_in (lit "describe") (lower query) || str_in (lit "statistics") (lower query) then
    obind (deref df) (fun d =>
    obind (describe_to_html d) (fun description =>
    Returned (lit "Here's a statistical description of the numerical columns in the dataset:"
              ++ newline ++ description)))
  else if str_in (lit "columns") (lower query) || str_in (lit "fields") (lower query) then
    obind (deref df) (fun d =>
    let columns := join (lit ", ") (DataFrame.columns d) in
    Returned (lit "The dataset contains the following columns: " ++ columns))
  else if str_in (lit "shape") (lower query) || str_in (lit "size") (lower query) then
    obind (deref df) (fun d =>
    let '(rows, cols) := DataFrame.shape d in
    Returned (lit "The dataset has " ++ format_int rows ++ lit " rows and "
              ++ format_int cols ++ lit " columns."))
  else if str_in (lit "sample") (lower query) then
    obind (deref df) (fun d =>
    let sample := head_to_string d in
    Returned (lit "Here's a sample of the first few rows of the dataset:"
              ++ newline ++ sample))
  else
    Returned clarification.

End Describe.

End Tools.

(* ------------------------------------------------------------------ *)
(** * The specification's vocabulary *)

Module Spec.
Import PyStr Tools.

(** The five answers of the dataset describer. *)
Inductive branch : Type :=
  | Statistics
  | ColumnListing
  | ShapeCounts
  | SampleRows
  | Clarification.

(** The keyword rules in the order the specification lists them. *)
Definition keyword_rules : list (list str * branch) :=
  [ ([lit "describe"; lit "statistics"], Statistics);
    ([lit "columns"; lit "fields"], ColumnListing);
    ([lit "shape"; lit "size"], ShapeCounts);
    ([lit "sample"], SampleRows) ].

(** The question mentions the keyword, whatever the case. *)
Definition mentions (query kw : str) : bool := str_in kw (lower query).

Definition rule_matches (query : str) (rule : list str * branch) : bool :=
  existsb (mentions query) (fst rule).

(** First matching rule wins; no match asks for clarification. *)
Definition first_match (query : str) : branch :=
  match find (rule_matches query) keyword_rules with
  | Some rule => snd rule
  | None => Clarification
  end.

Section Answers.
Context {pandas : Pandas}.

(** What each branch answers. *)
Definition answer (s : SessionState.t) (b : branch) : outcome str :=
  match b with
  | Statistics =>
      obind (deref (SessionState.df s)) (fun d =>
      obind (describe_to_html d) (fun html =>
      Returned (lit "Here's a statistical description of the numerical columns in the dataset:"
                ++ newline ++ html)))
  | ColumnListing =>
      obind (deref (SessionState.df s)) (fun d =>
      Returned (lit "The dataset contains the following columns: "
                ++ join (lit ", ") (DataFrame.columns d)))
  | ShapeCounts =>
      obind (deref (SessionState.df s)) (fun d =>
      Returned (lit "The dataset has "
                ++ format_int (List.length (DataFrame.rows d))
                ++ lit " rows and "
                ++ format_int (List.length (DataFrame.columns d))
                ++ lit " columns."))
  | SampleRows =>
      obind (deref (SessionState.df s)) (fun d =>
      Returned (lit "Here's a sample of the first few rows of the dataset:"
                ++ newline ++ head_to_string d))
  | Clarification => Returned clarification
  end.

End Answers.

(** [out] is [s] without its leading and trailing whitespace. *)
Definition stripped_of (s out : str) : Prop :=
  exists l r,
    s = l ++ out ++ r /\
    forallb isspace l = true /\ forallb isspace r = true /\
    (forall c rest, out = c :: rest -> isspace c = false) /\
    (forall c front, out = front ++ [c] -> isspace c = false).

(** ASCII letters, and a keyword sitting inside a larger word. *)
Definition is_letter (c : codepoint) : bool :=
  ((65 <=? c) && (c <=? 90) || (97 <=? c) && (c <=? 122))%N.

Definition inside_word (kw s : str) : Prop :=
  exists a b,
    s = a ++ kw ++ b /\
    ((exists a' c, a = a' ++ [c] /\ is_letter c = true) \/
     (exists c b', b = c :: b' /\ is_letter c = true)).



(** The world a loading call leaves: both session slots filled, the
    engine in its slot and in the resource cache, the old [db] table
    gone and the frame in its place. *)
Definition acquired (w : World) (d : DataFrame.t) : Engine * World :=
  let e := mkEngine (engines_created w) db_url in
  (e,
   mkWorld
     (SessionState.mk (Some e) (Some d) (Some (DataFrame.columns d)))
     (Some e)
     (drop_table_if_exists db_name (drop_table_if_exists db_name (database w))
        ++ [(db_name, mkTable (DataFrame.columns d) (DataFrame.rows d))])
     (csv w)
     (S (engines_created w))
     (trace w ++ [LoadCsv; CreateEngine (engines_created w);
                  DropTable db_name; DropTable db_name;
                  InsertTable db_name (List.length (DataFrame.rows d))])
     (storing w)).

(** The seven keywords, in the order of the checks. *)
Definition keywords : list str := flat_map fst keyword_rules.

(** The place of a branch in the order of the checks. *)
Definition rank (b : branch) : nat :=
  match b with
  | Statistics => 0
  | ColumnListing => 1
  | ShapeCounts => 2
  | SampleRows => 3
  | Clarification => 4
  end.

(** [w] with one more event in its trace, and [w] with an engine in the
    resource cache. *)
Definition logged (w : World) (ev : event) : World :=
  mkWorld (session_state w) (resource_cache w) (database w) (csv w)
          (engines_created w) (trace w ++ [ev]) (storing w).

Definition cached (w : World) (e : Engine) : World :=
  mkWorld (session_state w) (Some e) (database w) (csv w)
          (engines_created w) (trace w) (storing w).

(** The tables of the file that SQLite takes for [name]. *)
Definition tables_named (name : str) (db : Database) : Database :=
  filter (fun entry => name_eqb (fst entry) name) db.

(** The world a first call leaves when the frame is refused: [df] and
    [columns] are set already (lines 30 and 35), the engine is created
    but kept nowhere, the old [db] table is gone. *)
Definition refused_world (w : World) (d : DataFrame.t)
           (left_behind : option Table) : World :=
  mkWorld
    (SessionState.mk None (Some d) (Some (DataFrame.columns d)))
    None
    (drop_table_if_exists db_name (drop_table_if_exists db_name (database w))
       ++ match left_behind with
          | Some t => [(db_name, t)]
          | None => []
          end)
    (csv w)
    (S (engines_created w))
    (trace w ++ [LoadCsv; CreateEngine (engines_created w);
                 DropTable db_name; DropTable db_name])
    (storing w).

End Spec.

(* ------------------------------------------------------------------ *)
(** * Data for the examples *)

Module Examples.
Import PyStr Tools.

(** A stand-in for pandas' renderings. *)
Definition plain_pandas : Pandas :=
  {| describe_to_html := fun d =>
       match DataFrame.columns d with
       | [] => Raised ValueError
       | _ => Returned (lit "<table></table>")
       end;
     head_to_string := fun d => join (lit "  ") (DataFrame.columns d) |}.

Definition people : DataFrame.t :=
  DataFrame.mk [lit "name"; lit "age"]
    [ [CText (lit "Ada"); CInt 36];
      [CText (lit "Alan"); CInt 41];
      [CText (lit "Grace"); CInt 85] ].

Definition loaded : SessionState.t :=
  SessionState.mk None (Some people) (Some (DataFrame.columns people)).

(** A stand-in for what pandas and SQLite refuse: two column labels
    that differ in the case of ASCII letters at most, and integers that
    do not fit a signed 64-bit column. *)
Fixpoint labels_clash (labels : list str) : bool :=
  match labels with
  | [] => false
  | l :: rest => existsb (name_eqb l) rest || labels_clash rest
  end.

Definition fits_int64 (c : cell) : bool :=
  match c with
  | CInt z => ((- 2 ^ 63 <=? z) && (2 ^ 63 >? z))%Z
  | _ => true
  end.

Definition plain_storing (d : DataFrame.t) : verdict :=
  if labels_clash (DataFrame.columns d) then Refused OperationalError None
  else if forallb (forallb fits_int64) (DataFrame.rows d) then Stored
  else Refused ValueError None.

(** A server process that has just started, with [people] on disk and
    an earlier run's tables in [db.db]. *)
Definition fresh_world : World :=
  mkWorld SessionState.initial None
    [ (db_name, mkTable [lit "x"] [[CInt 1]]) ]
    (Returned people) 0 [] plain_storing.


(** Questions. *)
Definition size_question : str := lit "What SIZE is it?".
Definition both_question : str := lit "Describe a sample, please".
Definition vague_question : str := lit "unknown request".
Definition emphasize_question : str := lit "Please emphasize it".
Definition describe_emphasize : str := lit "describe, and emphasize".

(** Candidate SQL as the completion service hands it out. *)
Definition fenced_sql : str :=
  lit "```sql" ++ newline ++ lit "SELECT name FROM db LIMIT 5;" ++ newline ++ lit "```".
Definition bare_sql : str := lit "SELECT name FROM db".

(** A process whose CSV cannot be loaded. *)
Definition failing_world : World :=
  mkWorld SessionState.initial None [] (Raised LoadError) 0 [] plain_storing.

(** A process whose [db.db] holds a table of notes besides an old table
    created under the name [DB]. *)
Definition notes : Table := mkTable [lit "note"] [[CText (lit "keep me")]].

Definition world_with_notes : World :=
  mkWorld SessionState.initial None
    [ (lit "notes", notes); (lit "DB", mkTable [lit "x"] [[CInt 1]]) ]
    (Returned people) 0 [] plain_storing.



(** A session whose engine slot was filled before the first call. *)
Definition own_engine : Engine := mkEngine 7 db_url.

Definition filled_slot_world : World :=
  mkWorld (SessionState.mk (Some own_engine) None None) None []
    (Returned people) 8 [] plain_storing.

Definition columns_question : str := lit "Which FIELDS and what shape?".
Definition describe_question : str := lit "describe".
Definition blank_block : str :=
  lit "```sql" ++ newline ++ lit "  " ++ newline ++ lit "```".

End Examples.

(* ------------------------------------------------------------------ *)
(** * Facts about the string methods *)

Module PyStrFacts.
Import PyStr.

Lemma startswith_app (p t : str) : startswith (p ++ t) p = true.
Proof.
  induction p as [|c p IH]; simpl; [now destruct t|].
  now rewrite N.eqb_refl, IH.
Qed.

Lemma startswith_inv (s p : str) :
  startswith s p = true -> exists t, s = p ++ t.
Proof.
  revert s; induction p as [|c p IH]; intros s H.
  - now exists s.
  - destruct s as [|d s]; simpl in H; [discriminate|].
    apply andb_true_iff in H as [Hc Hs].
    apply N.eqb_eq in Hc; subst d.
    destruct (IH _ Hs) as [t ->].
    now exists t.
Qed.

Lemma endswith_app (t p : str) : endswith (t ++ p) p = true.
Proof.
  unfold endswith. rewrite rev_app_distr. apply startswith_app.
Qed.

Lemma endswith_inv (s p : str) :
  endswith s p = true -> exists t, s = t ++ p.
Proof.
  unfold endswith; intros H.
  apply startswith_inv in H as [u Hu].
  exists (rev u).
  rewrite <- (rev_involutive s), Hu, rev_app_distr, rev_involutive.
  reflexivity.
Qed.

Lemma str_in_startswith (sub s : str) :
  startswith s sub = true -> str_in sub s = true.
Proof. destruct s; simpl; intros ->; reflexivity. Qed.

Lemma str_in_app (a sub b : str) : str_in sub (a ++ sub ++ b) = true.
Proof.
  induction a as [|c a IH].
  - cbn [app]. apply str_in_startswith, startswith_app.
  - simpl. rewrite IH. apply orb_true_r.
Qed.

Lemma str_in_inv (sub s : str) :
  str_in sub s = true -> exists a b, s = a ++ sub ++ b.
Proof.
  induction s as [|c s IH]; intros H.
  - destruct sub; [now exists [], []|discriminate].
  - cbn [str_in] in H. apply orb_true_iff in H as [H|H].
    + apply startswith_inv in H as [t Ht]. now exists [], t.
    + destruct (IH H) as (a & b & ->). now exists (c :: a), b.
Qed.

Lemma lower_app (a b : str) : lower (a ++ b) = lower a ++ lower b.
Proof. apply flat_map_app. Qed.

(** A lower-case keyword found in a question is found in its lower-case
    form too. *)
Lemma str_in_lower (kw q : str) :
  lower kw = kw -> str_in kw q = true -> str_in kw (lower q) = true.
Proof.
  intros Hkw H.
  apply str_in_inv in H as (a & b & ->).
  rewrite !lower_app, Hkw. apply str_in_app.
Qed.

(** ** [lower] and [upper] *)

Lemma str_eqb_refl (a : str) : str_eqb a a = true.
Proof.
  induction a as [|c a IH]; [reflexivity|].
  cbn [str_eqb]. now rewrite N.eqb_refl.
Qed.

Lemma str_eqb_eq (a b : str) : str_eqb a b = true -> a = b.
Proof.
  revert b; induction a as [|x a IH]; intros [|y b] H;
    try reflexivity; try discriminate H.
  cbn [str_eqb] in H. apply andb_true_iff in H as [Hx Hab].
  apply N.eqb_eq in Hx. now rewrite Hx, (IH b Hab).
Qed.








(** ** Slices *)

Lemma slice_middle (a m b : str) :
  b <> [] ->
  slice (a ++ m ++ b) (Z.of_nat (List.length a)) (- Z.of_nat (List.length b)) = m.
Proof.
  intros Hb. unfold slice, slice_bound.
  rewrite !length_app.
  assert (0 < List.length b)%nat by (destruct b; [congruence | simpl; lia]).
  destruct (Z.ltb_spec (Z.of_nat (List.length a)) 0); [lia|].
  destruct (Z.ltb_spec (- Z.of_nat (List.length b)) 0); [|lia].
  rewrite Z.min_l by lia.
  rewrite Z.max_r by lia.
  rewrite Nat2Z.id.
  replace (Z.to_nat _) with (List.length m) by lia.
  rewrite skipn_app, skipn_all, Nat.sub_diag. cbn [skipn app].
  rewrite firstn_app, firstn_all, Nat.sub_diag. cbn [firstn].
  apply app_nil_r.
Qed.

(** ** Stripping *)

Lemma lstrip_split (s : str) :
  exists l, s = l ++ lstrip s /\ forallb isspace l = true.
Proof.
  induction s as [|c s (l & Hs & Hl)].
  - now exists [].
  - cbn [lstrip]. destruct (isspace c) eqn:E.
    + exists (c :: l). cbn [forallb app]. rewrite E, Hl, <- Hs. now split.
    + now exists [].
Qed.

Lemma lstrip_head (s : str) (c : codepoint) (rest : str) :
  lstrip s = c :: rest -> isspace c = false.
Proof.
  induction s as [|d s IH]; cbn [lstrip]; [discriminate|].
  destruct (isspace d) eqn:E; [exact IH|].
  now intros [= -> _].
Qed.

Lemma forallb_rev {A} (f : A -> bool) (l : list A) :
  forallb f (rev l) = forallb f l.
Proof.
  induction l as [|x l IH]; [reflexivity|].
  cbn [rev forallb]. rewrite forallb_app, IH. cbn [forallb].
  rewrite andb_true_r. apply andb_comm.
Qed.

Lemma rstrip_split (s : str) :
  exists r, s = rstrip s ++ r /\ forallb isspace r = true.
Proof.
  destruct (lstrip_split (rev s)) as (l & Hs & Hl).
  exists (rev l). split.
  - unfold rstrip. rewrite <- rev_app_distr, <- Hs. symmetry; apply rev_involutive.
  - now rewrite forallb_rev.
Qed.

Lemma rstrip_last (s : str) (c : codepoint) (front : str) :
  rstrip s = front ++ [c] -> isspace c = false.
Proof.
  unfold rstrip. intros H.
  apply (f_equal (@rev _)) in H.
  rewrite rev_involutive, rev_app_distr in H.
  exact (lstrip_head _ _ _ H).
Qed.

Lemma strip_stripped_of (s : str) : Spec.stripped_of s (strip s).
Proof.
  destruct (lstrip_split s) as (l & Hs & Hl).
  destruct (rstrip_split (lstrip s)) as (r & Ht & Hr).
  exists l, r. unfold strip. repeat split; try assumption.
  - now rewrite <- Ht.
  - intros c rest E. rewrite E in Ht. exact (lstrip_head _ _ _ Ht).
  - intros c front E. exact (rstrip_last _ _ _ E).
Qed.

(** ** Printing a count *)

Lemma parse_digits_string_of_uint (d : Decimal.uint) (acc : nat) :
  parse_digits acc (lit (NilEmpty.string_of_uint d))
  = Some (Nat.of_uint_acc d acc).
Proof.
  revert acc; induction d; intros acc;
    cbn [NilEmpty.string_of_uint lit list_ascii_of_string map parse_digits
         Nat.of_uint_acc];
    try reflexivity;
    match goal with
    | |- context [digit_value ?c] =>
        let v := eval vm_compute in (digit_value c) in
        change (digit_value c) with v; cbv iota beta
    end;
    fold (lit (NilEmpty.string_of_uint d));
    rewrite IHd, Nat.tail_mul_spec; do 2 f_equal; lia.
Qed.

Lemma to_uint_not_nil (n : nat) : Nat.to_uint n <> Decimal.Nil.
Proof.
  intros E.
  pose proof (DecimalNat.Unsigned.to_of (Nat.to_uint n)) as H.
  rewrite DecimalNat.Unsigned.of_to, E in H. discriminate H.
Qed.

(** What [format_int] prints reads back as the count. *)
Lemma parse_format (n : nat) : parse_int (format_int n) = Some n.
Proof.
  unfold parse_int, format_int.
  destruct (lit (NilEmpty.string_of_uint (Nat.to_uint n))) eqn:E.
  - exfalso. apply (to_uint_not_nil n).
    destruct (Nat.to_uint n); [reflexivity | discriminate E ..].
  - rewrite <- E, parse_digits_string_of_uint.
    f_equal. apply DecimalNat.Unsigned.of_to.
Qed.

End PyStrFacts.

(* ------------------------------------------------------------------ *)
(** * The dataset describer *)

Module DescribeFacts.
Import PyStr Tools Spec PyStrFacts.

Section WithPandas.
Context {pandas : Pandas}.

(** The cascade of [if]/[elif] is the first-match search over the
    keyword rules. *)
Lemma describe_dataset_answer (s : SessionState.t) (q : str) :
  describe_dataset s q = answer s (first_match q).
Proof.
  unfold describe_dataset, first_match, keyword_rules.
  cbn [find rule_matches existsb fst snd]. unfold mentions.
  destruct (str_in (lit "describe") (lower q)); [reflexivity|].
  destruct (str_in (lit "statistics") (lower q)); [reflexivity|].
  destruct (str_in (lit "columns") (lower q)); [reflexivity|].
  destruct (str_in (lit "fields") (lower q)); [reflexivity|].
  destruct (str_in (lit "shape") (lower q)); [reflexivity|].
  destruct (str_in (lit "size") (lower q)); [reflexivity|].
  destruct (str_in (lit "sample") (lower q)); reflexivity.
Qed.

Lemma first_match_statistics (q : str) :
  mentions q (lit "describe") = true \/ mentions q (lit "statistics") = true ->
  first_match q = Statistics.
Proof.
  unfold first_match, keyword_rules.
  cbn [find rule_matches existsb fst snd].
  intros [-> | ->]; rewrite ?orb_true_r; reflexivity.
Qed.

(** A keyword the question contains literally is mentioned. *)
Lemma contains_mentions (q kw : str) :
  lower kw = kw -> str_in kw q = true -> mentions q kw = true.
Proof. intros; unfold mentions; now apply str_in_lower. Qed.

(** The search over any rule list: the first rule that matches decides. *)
Lemma find_first_rule (q : str) (pre post : list (list str * branch))
      (rule : list str * branch) :
  existsb (rule_matches q) pre = false ->
  rule_matches q rule = true ->
  find (rule_matches q) (pre ++ rule :: post) = Some rule.
Proof.
  induction pre as [|r pre IH]; cbn [existsb app find]; intros Hpre Hr.
  - now rewrite Hr.
  - apply orb_false_iff in Hpre as [-> Hpre]. now apply IH.
Qed.

Lemma inside_word_mentions (q kw : str) :
  inside_word kw (lower q) -> mentions q kw = true.
Proof.
  intros (a & b & E & _). unfold mentions. rewrite E. apply str_in_app.
Qed.

(** With a dataset that pandas can describe, the five answers differ
    pairwise. *)
Lemma answer_inj (s : SessionState.t) (d : DataFrame.t) (html : str)
      (b b' : branch) :
  SessionState.df s = Some d ->
  describe_to_html d = Returned html ->
  answer s b = answer s b' -> b = b'.
Proof.
  intros Hd Hh E.
  apply (f_equal (fun o => match o with
                           | Returned text => firstn 13 text
                           | Raised _ => []
                           end)) in E.
  destruct b, b'; try reflexivity; exfalso; revert E;
    unfold answer; rewrite Hd; cbn [deref obind]; rewrite ?Hh;
    cbn [obind]; vm_compute; discriminate.
Qed.

End WithPandas.

End DescribeFacts.

(* ------------------------------------------------------------------ *)
(** * The tabular store *)

Module EngineFacts.
Import PyStr Tools Spec PyStrFacts.
Local Open Scope py_scope.

Lemma name_eqb_refl (a : str) : name_eqb a a = true.
Proof. apply str_eqb_refl. Qed.

Lemma name_eqb_sym (a b : str) : name_eqb a b = name_eqb b a.
Proof.
  unfold name_eqb.
  generalize (map fold_ascii a), (map fold_ascii b).
  intros x; induction x as [|c x IH]; intros [|d y]; try reflexivity.
  cbn [str_eqb]. now rewrite N.eqb_sym, IH.
Qed.

Lemma name_eqb_trans (a b c : str) :
  name_eqb a b = true -> name_eqb b c = true -> name_eqb a c = true.
Proof.
  unfold name_eqb. intros H1 H2.
  apply str_eqb_eq in H1. apply str_eqb_eq in H2.
  rewrite H1, H2. apply str_eqb_refl.
Qed.

Lemma find_table_drop (name : str) (db : Database) :
  find_table name (drop_table_if_exists name db) = None.
Proof.
  unfold find_table, drop_table_if_exists.
  induction db as [|[n t] db IH]; [reflexivity|].
  cbn [filter fst]. destruct (name_eqb n name) eqn:E; cbn [negb]; [exact IH|].
  cbn [find fst]. now rewrite E.
Qed.

Lemma find_table_new (name : str) (t : Table) (db : Database) :
  find_table name db = None ->
  find_table name (db ++ [(name, t)]) = Some t.
Proof.
  unfold find_table.
  induction db as [|[n u] db IH]; cbn [app find fst].
  - now rewrite name_eqb_refl.
  - destruct (name_eqb n name); [discriminate | exact IH].
Qed.

Ltac run_call :=
  cbv beta iota zeta delta
      -[find_table drop_table_if_exists db_name db_url app List.length].

Lemma get_sqlite_engine_loads (w : World) (d : DataFrame.t) :
  resource_cache w = None ->
  SessionState.engine (session_state w) = None ->
  csv w = Returned d ->
  storing w d = Stored ->
  get_sqlite_engine w
  = (Returned (fst (acquired w d)), snd (acquired w d)).
Proof.
  destruct w as [[eng sdf scols] rc db c n tr st].
  cbn [resource_cache session_state SessionState.engine csv storing].
  intros -> -> -> Hst.
  run_call. rewrite find_table_drop. run_call. rewrite Hst. run_call.
  rewrite <- !app_assoc. reflexivity.
Qed.

(** The loader raises: the call raises the same, with nothing but the
    attempt left in the trace. *)
Lemma get_sqlite_engine_load_fails (w : World) (x : exn) :
  resource_cache w = None ->
  SessionState.engine (session_state w) = None ->
  csv w = Raised x ->
  get_sqlite_engine w = (Raised x, logged w LoadCsv).
Proof.
  destruct w as [[eng sdf scols] rc db c n tr st].
  cbn [resource_cache session_state SessionState.engine csv].
  intros -> -> ->. reflexivity.
Qed.

(** The frame is refused: the call raises what pandas or SQLite raised. *)
Lemma get_sqlite_engine_refused
      (w : World) (d : DataFrame.t) (x : exn) (left : option Table) :
  resource_cache w = None ->
  SessionState.engine (session_state w) = None ->
  csv w = Returned d ->
  storing w d = Refused x left ->
  get_sqlite_engine w = (Raised x, refused_world w d left).
Proof.
  destruct w as [[eng sdf scols] rc db c n tr st].
  cbn [resource_cache session_state SessionState.engine csv storing].
  intros -> -> -> Hst.
  run_call. rewrite find_table_drop. run_call. rewrite Hst.
  destruct left; run_call; rewrite <- ?app_assoc; try rewrite app_nil_r;
    reflexivity.
Qed.

(** The engine slot is filled and the cache is not: the slot's engine is
    returned and cached. *)
Lemma get_sqlite_engine_uses_slot (w : World) (e0 : Engine) :
  resource_cache w = None ->
  SessionState.engine (session_state w) = Some e0 ->
  get_sqlite_engine w = (Returned e0, cached w e0).
Proof.
  destruct w as [[eng sdf scols] rc db c n tr st].
  cbn [resource_cache session_state SessionState.engine].
  intros -> ->. reflexivity.
Qed.

(** A first call that returns has stored the frame. *)
Lemma get_sqlite_engine_returned
      (w w' : World) (d : DataFrame.t) (e : Engine) :
  resource_cache w = None ->
  SessionState.engine (session_state w) = None ->
  csv w = Returned d ->
  get_sqlite_engine w = (Returned e, w') ->
  storing w d = Stored /\ e = fst (acquired w d) /\ w' = snd (acquired w d).
Proof.
  intros Hc Hs Hd H.
  destruct (storing w d) as [|x left] eqn:Hst.
  - rewrite (get_sqlite_engine_loads w d Hc Hs Hd Hst) in H.
    injection H as <- <-. repeat split.
  - rewrite (get_sqlite_engine_refused w d x left Hc Hs Hd Hst) in H.
    discriminate H.
Qed.

(** A call that returned has filled the resource cache. *)
Lemma get_sqlite_engine_caches (w w1 : World) (e : Engine) :
  get_sqlite_engine w = (Returned e, w1) -> resource_cache w1 = Some e.
Proof.
  unfold get_sqlite_engine, cache_resource.
  destruct (resource_cache w) eqn:Hc.
  - now intros [= <- <-].
  - destruct (get_sqlite_engine_body w) as [[e' | x] w']; [|discriminate].
    now intros [= <- <-].
Qed.

Lemma get_sqlite_engine_hit (w : World) (e : Engine) :
  resource_cache w = Some e -> get_sqlite_engine w = (Returned e, w).
Proof.
  intros H. unfold get_sqlite_engine, cache_resource. now rewrite H.
Qed.

(** Later calls in the session: the same handle, the same world. *)
Lemma get_sqlite_engine_repeat (w w1 : World) (e : Engine) (n : nat) :
  get_sqlite_engine w = (Returned e, w1) ->
  call_times n w1 = (Returned e, w1).
Proof.
  intros H. apply get_sqlite_engine_caches in H.
  induction n as [|n IH]; cbn [call_times];
    rewrite (get_sqlite_engine_hit _ _ H); [reflexivity | exact IH].
Qed.

End EngineFacts.

(* ------------------------------------------------------------------ *)
(** * Properties of the specification: intent routing *)

Module Describer.
Import PyStr Tools Spec PyStrFacts DescribeFacts Examples.

Section WithPandas.
Context {pandas : Pandas}.

(** C1.  [describe_dataset] answers with the branch of the first keyword
    rule that matches the lower-cased question, the rules being tried in
    the order describe/statistics, columns/fields, shape/size, sample,
    and with the clarification when none matches.  A question with
    "describe" and also "sample" or "columns" gets the statistics
    answer, whether the words are matched literally or up to case.  With
    a dataset pandas can describe, no other branch gives the answer
    returned: exactly one branch fires. *)
Theorem first_matching_branch_wins (s : SessionState.t) (q : str) :
  describe_dataset s q = answer s (first_match q)
  /\ (mentions q (lit "describe") = true ->
      mentions q (lit "sample") = true \/ mentions q (lit "columns") = true ->
      describe_dataset s q = answer s Statistics)
  /\ (str_in (lit "describe") q = true ->
      str_in (lit "sample") q = true \/ str_in (lit "columns") q = true ->
      describe_dataset s q = answer s Statistics)
  /\ (forall d html b,
        SessionState.df s = Some d ->
        describe_to_html d = Returned html ->
        describe_dataset s q = answer s b -> b = first_match q).
Proof.
  repeat split.
  - apply describe_dataset_answer.
  - intros Hd _. rewrite describe_dataset_answer.
    f_equal. apply first_match_statistics. now left.
  - intros Hd _. rewrite describe_dataset_answer.
    f_equal. apply first_match_statistics. left.
    now apply contains_mentions.
  - intros d html b Hdf Hhtml E.
    rewrite describe_dataset_answer in E.
    symmetry. exact (answer_inj s d html _ _ Hdf Hhtml E).
Qed.

(** C5.  With a dataset loaded, a question that mentions "shape" or
    "size" and none of "describe", "statistics", "columns", "fields" is
    answered with the sentence that carries the frame's two shape
    components, the row count and the column count, printed in decimal
    (the digits read back as the counts). *)
Theorem shape_answer_has_counts (s : SessionState.t) (d : DataFrame.t)
        (q : str) (n m : nat) :
  SessionState.df s = Some d ->
  DataFrame.shape d = (n, m) ->
  mentions q (lit "shape") = true \/ mentions q (lit "size") = true ->
  (forall kw,
      In kw [lit "describe"; lit "statistics"; lit "columns"; lit "fields"] ->
      mentions q kw = false) ->
  describe_dataset s q
  = Returned (lit "The dataset has " ++ format_int n ++ lit " rows and "
              ++ format_int m ++ lit " columns.")
  /\ parse_int (format_int n) = Some n
  /\ parse_int (format_int m) = Some m
  /\ n = List.length (DataFrame.rows d)
  /\ m = List.length (DataFrame.columns d).
Proof.
  intros Hdf Hshape Hkw Hnone.
  unfold DataFrame.shape in Hshape. injection Hshape as <- <-.
  repeat split; try apply parse_format.
  unfold describe_dataset, mentions in *.
  rewrite (Hnone (lit "describe")), (Hnone (lit "statistics")),
    (Hnone (lit "columns")), (Hnone (lit "fields"))
    by (cbn [In]; tauto).
  cbn [orb].
  replace (str_in (lit "shape") (lower q) || str_in (lit "size") (lower q))
    with true
    by (destruct Hkw as [-> | ->]; now rewrite ?orb_true_r).
  rewrite Hdf. reflexivity.
Qed.

(** C6.  A question that mentions none of the seven keywords is answered
    with the fixed clarification message, returned and not raised,
    whatever the session holds. *)
Theorem no_keyword_clarification (s : SessionState.t) (q : str) :
  (forall kw,
      In kw [lit "describe"; lit "statistics"; lit "columns"; lit "fields";
             lit "shape"; lit "size"; lit "sample"] ->
      mentions q kw = false) ->
  describe_dataset s q = Returned clarification
  /\ raises (describe_dataset s q) = false.
Proof.
  intros Hnone.
  assert (E : describe_dataset s q = Returned clarification).
  { unfold describe_dataset, mentions in *.
    rewrite (Hnone (lit "describe")), (Hnone (lit "statistics")),
      (Hnone (lit "columns")), (Hnone (lit "fields")),
      (Hnone (lit "shape")), (Hnone (lit "size")), (Hnone (lit "sample"))
      by (cbn [In]; tauto).
    reflexivity. }
  now rewrite E.
Qed.




(** C10, amended.  Matching is by substring: a keyword that occurs
    inside a larger word of the lower-cased question makes its rule
    match, and the rule's branch answers provided no rule listed before
    it matches. *)
Theorem keyword_inside_word_fires (s : SessionState.t) (q kw : str)
        (pre post : list (list str * branch)) (kws : list str) (b : branch) :
  keyword_rules = pre ++ (kws, b) :: post ->
  In kw kws ->
  inside_word kw (lower q) ->
  existsb (rule_matches q) pre = false ->
  mentions q kw = true /\ describe_dataset s q = answer s b.
Proof.
  intros Hrules Hin Hword Hpre.
  pose proof (inside_word_mentions q kw Hword) as Hm.
  split; [exact Hm|].
  rewrite describe_dataset_answer. f_equal.
  unfold first_match. rewrite Hrules.
  rewrite (find_first_rule q pre post (kws, b) Hpre); [reflexivity|].
  unfold rule_matches. cbn [fst].
  apply existsb_exists. now exists kw.
Qed.

End WithPandas.

(** C7.  [handle_unexpected_query] returns the one apology string on
    every input, and never raises. *)
Theorem handle_unexpected_query_constant (query query' : str) :
  handle_unexpected_query query = Returned apology
  /\ handle_unexpected_query query = handle_unexpected_query query'
  /\ raises (handle_unexpected_query query) = false.
Proof. repeat split. Qed.

(** ** The properties at work *)

Lemma first_matching_branch_wins_witness :
  mentions both_question (lit "describe") = true
  /\ mentions both_question (lit "sample") = true
  /\ describe_dataset (pandas := plain_pandas) loaded both_question
     = Returned (lit "Here's a statistical description of the numerical columns in the dataset:"
                 ++ newline ++ lit "<table></table>").
Proof.
  split; [reflexivity|]. split; [reflexivity|].
  exact (proj1 (proj2 (first_matching_branch_wins
                         (pandas := plain_pandas) loaded both_question))
               eq_refl (or_introl eq_refl)).
Defined.

Lemma shape_answer_has_counts_witness :
  describe_dataset (pandas := plain_pandas) loaded size_question
  = Returned (lit "The dataset has 3 rows and 2 columns.").
Proof.
  refine (proj1 (shape_answer_has_counts (pandas := plain_pandas)
                   loaded people size_question 3 2
                   eq_refl eq_refl (or_intror eq_refl) _)).
  intros kw [<- | [<- | [<- | [<- | []]]]]; reflexivity.
Defined.

Lemma no_keyword_clarification_witness :
  describe_dataset (pandas := plain_pandas) SessionState.initial vague_question
  = Returned clarification.
Proof.
  refine (proj1 (no_keyword_clarification (pandas := plain_pandas)
                   SessionState.initial vague_question _)).
  intros kw [<- | [<- | [<- | [<- | [<- | [<- | [<- | []]]]]]]]; reflexivity.
Defined.



(** C10 as stated fails: "size" sits inside "emphasize", yet the
    statistics branch answers, "describe" being tried first. *)
Lemma inside_word_other_branch :
  In ([lit "shape"; lit "size"], ShapeCounts) keyword_rules
  /\ inside_word (lit "size") (lower describe_emphasize)
  /\ first_match describe_emphasize = Statistics
  /\ describe_dataset (pandas := plain_pandas) loaded describe_emphasize
     <> answer (pandas := plain_pandas) loaded ShapeCounts.
Proof.
  split; [cbn; tauto|]. split.
  - exists (lit "describe, and empha"), [].
    split; [reflexivity|]. left. exists (lit "describe, and emph"), 97%N.
    split; reflexivity.
  - split; [reflexivity|]. vm_compute. discriminate.
Qed.

Lemma keyword_inside_word_fires_witness :
  inside_word (lit "size") (lower emphasize_question)
  /\ describe_dataset (pandas := plain_pandas) loaded emphasize_question
     = Returned (lit "The dataset has 3 rows and 2 columns.").
Proof.
  assert (W : inside_word (lit "size") (lower emphasize_question)).
  { exists (lit "please empha"), (lit " it").
    split; [reflexivity|]. left. exists (lit "please emph"), 97%N.
    split; reflexivity. }
  split; [exact W|].
  exact (proj2 (keyword_inside_word_fires (pandas := plain_pandas)
                  loaded emphasize_question (lit "size")
                  [ ([lit "describe"; lit "statistics"], Statistics);
                    ([lit "columns"; lit "fields"], ColumnListing) ]
                  [ ([lit "sample"], SampleRows) ]
                  [lit "shape"; lit "size"] ShapeCounts
                  eq_refl (or_intror (or_introl eq_refl)) W eq_refl)).
Defined.

End Describer.

(* ------------------------------------------------------------------ *)
(** * Properties of the specification: query synthesis *)

Module Fences.
Import PyStr Tools Spec PyStrFacts Examples.

(** A string with both fence markers is the markers around an inner
    part: the closing marker cannot run into the opening one. *)
Lemma fenced_inv (s : str) :
  startswith s fence_open = true ->
  endswith s fence_close = true ->
  exists inner, s = fence_open ++ inner ++ fence_close.
Proof.
  intros Ho Hc.
  apply startswith_inv in Ho as [t ->].
  destruct t as [|a [|b [|c t]]];
    try (exfalso; revert Hc; unfold endswith; cbn;
         rewrite ?andb_false_r; discriminate).
  apply endswith_inv in Hc as [u Hu].
  apply app_eq_app in Hu as [l [[_ Hc] | [_ Ht]]].
  - assert (Hlen : List.length fence_close
                   = List.length (l ++ a :: b :: c :: t)) by now rewrite Hc.
    rewrite length_app in Hlen. cbn in Hlen.
    destruct l; [|cbn in Hlen; lia].
    exists []. cbn [app] in Hc |- *. now rewrite <- Hc.
  - exists l. now rewrite Ht.
Qed.

(** The slice between the markers is the inner part. *)
Lemma slice_fenced (inner : str) :
  slice (fence_open ++ inner ++ fence_close) 6 (-3) = inner.
Proof.
  exact (slice_middle fence_open inner fence_close
           (fun E => ltac:(discriminate E))).
Qed.

(** C2.  On a string that starts with the opening marker and ends with
    the closing one, [remove_markdown_code_block] returns what lies
    between the two markers without its leading and trailing
    whitespace; on a string that lacks either marker, it returns the
    string itself. *)
Theorem remove_markdown_code_block_spec (sql_code : str) :
  (startswith sql_code fence_open = true ->
   endswith sql_code fence_close = true ->
   exists inner,
     sql_code = fence_open ++ inner ++ fence_close
     /\ remove_markdown_code_block sql_code = strip inner
     /\ stripped_of inner (remove_markdown_code_block sql_code))
  /\ (startswith sql_code fence_open = false
      \/ endswith sql_code fence_close = false ->
      remove_markdown_code_block sql_code = sql_code).
Proof.
  split.
  - intros Ho Hc.
    destruct (fenced_inv sql_code Ho Hc) as [inner E].
    exists inner.
    assert (R : remove_markdown_code_block sql_code = strip inner).
    { unfold remove_markdown_code_block.
      rewrite Ho, Hc. cbn [andb]. now rewrite E, slice_fenced. }
    repeat split; [exact E | exact R |].
    rewrite R. apply strip_stripped_of.
  - unfold remove_markdown_code_block.
    intros [-> | ->]; rewrite ?andb_false_r; reflexivity.
Qed.

Lemma remove_markdown_code_block_spec_witness :
  (exists inner,
      fenced_sql = fence_open ++ inner ++ fence_close
      /\ remove_markdown_code_block fenced_sql = strip inner
      /\ stripped_of inner (remove_markdown_code_block fenced_sql))
  /\ remove_markdown_code_block bare_sql = bare_sql.
Proof.
  split.
  - exact (proj1 (remove_markdown_code_block_spec fenced_sql)
             eq_refl eq_refl).
  - exact (proj2 (remove_markdown_code_block_spec bare_sql)
             (or_introl eq_refl)).
Defined.

Example remove_markdown_code_block_fenced :
  remove_markdown_code_block fenced_sql = lit "SELECT name FROM db LIMIT 5;".
Proof. reflexivity. Qed.

(** Too short for both markers: untouched. *)
Example remove_markdown_code_block_short :
  remove_markdown_code_block (lit "```sql``") = lit "```sql``".
Proof. reflexivity. Qed.

End Fences.


(* ------------------------------------------------------------------ *)
(** * Properties of the specification: the tabular store *)

Module Store.
Import PyStr Tools Spec EngineFacts Examples.

(** C3.  When [get_sqlite_engine] acquires the store for the first time
    (nothing in the resource cache, nothing in the session's engine
    slot) and the CSV loads as a frame of [N] rows and [M] columns,
    then once the call has completed the table [db] of the database
    counts [N] rows and the column list recorded in the session state
    has length [M].  The call does complete whenever pandas and SQLite
    store the frame. *)
Theorem first_acquisition_mirrors_frame
        (w : World) (d : DataFrame.t) (N M : nat) :
  resource_cache w = None ->
  SessionState.engine (session_state w) = None ->
  csv w = Returned d ->
  DataFrame.shape d = (N, M) ->
  (forall e w',
      get_sqlite_engine w = (Returned e, w') ->
      select_count db_name (database w') = Returned N
      /\ option_map (@List.length str)
                    (SessionState.columns (session_state w'))
         = Some M
      /\ SessionState.df (session_state w') = Some d
      /\ SessionState.engine (session_state w') = Some e)
  /\ (storing w d = Stored ->
      exists e w', get_sqlite_engine w = (Returned e, w')).
Proof.
  intros Hcache Hslot Hcsv Hshape.
  unfold DataFrame.shape in Hshape. injection Hshape as <- <-.
  split.
  - intros e w' H.
    destruct (get_sqlite_engine_returned w w' d e Hcache Hslot Hcsv H)
      as (_ & -> & ->).
    unfold acquired.
    cbn [fst snd database session_state SessionState.columns SessionState.df
         SessionState.engine option_map].
    repeat split.
    unfold select_count.
    rewrite find_table_new by apply find_table_drop.
    reflexivity.
  - intros Hst.
    exists (fst (acquired w d)), (snd (acquired w d)).
    now apply get_sqlite_engine_loads.
Qed.

Lemma first_acquisition_mirrors_frame_witness :
  exists e w',
    get_sqlite_engine fresh_world = (Returned e, w')
    /\ select_count db_name (database w') = Returned 3
    /\ option_map (@List.length str) (SessionState.columns (session_state w'))
       = Some 2
    /\ SessionState.df (session_state w') = Some people
    /\ SessionState.engine (session_state w') = Some e.
Proof.
  destruct (first_acquisition_mirrors_frame fresh_world people 3 2
              eq_refl eq_refl eq_refl eq_refl) as [Hafter Hreturns].
  destruct (Hreturns eq_refl) as (e & w' & E).
  exists e, w'. split; [exact E | exact (Hafter e w' E)].
Defined.

(** Within the session that loaded: every later call returns the handle
    of the first and leaves the world, session state and trace
    included, as the first call left it. *)
Lemma later_calls_cached (w : World) (d : DataFrame.t) (n : nat) :
  resource_cache w = None ->
  SessionState.engine (session_state w) = None ->
  csv w = Returned d ->
  storing w d = Stored ->
  call_times n (snd (acquired w d))
  = (Returned (fst (acquired w d)), snd (acquired w d)).
Proof.
  intros Hcache Hslot Hcsv Hst.
  apply (get_sqlite_engine_repeat w).
  now apply get_sqlite_engine_loads.
Qed.

(** One load and one insert, however many calls follow. *)
Lemma one_reset_in_first_session (n : nat) :
  let w := snd (call_times n (snd (acquired fresh_world people))) in
  List.length (filter is_load (trace w)) = 1
  /\ List.length (filter is_insert (trace w)) = 1
  /\ List.length (filter is_drop (trace w)) = 2.
Proof.
  cbv zeta.
  rewrite (later_calls_cached fresh_world people n
             eq_refl eq_refl eq_refl eq_refl).
  vm_compute. repeat split.
Qed.

(** C4, at a second session of the same server process.  The first
    session's call loads, drops and inserts.  The second session starts
    with an empty engine slot, yet its call returns the first session's
    engine from the resource cache and does nothing else: nothing is
    loaded, dropped or inserted in that session, and its [df] and
    [columns] slots stay empty. *)
Theorem later_session_skips_reload :
  let w1 := snd (get_sqlite_engine fresh_world) in
  let w2 := new_session w1 in
  trace w1 = [LoadCsv; CreateEngine 0; DropTable db_name; DropTable db_name;
              InsertTable db_name 3]
  /\ SessionState.engine (session_state w2) = None
  /\ get_sqlite_engine w2 = (Returned (mkEngine 0 db_url), w2)
  /\ trace (snd (get_sqlite_engine w2)) = trace w1
  /\ SessionState.df (session_state (snd (get_sqlite_engine w2))) = None
  /\ SessionState.columns (session_state (snd (get_sqlite_engine w2))) = None.
Proof.
  cbv zeta.
  rewrite (get_sqlite_engine_loads fresh_world people
             eq_refl eq_refl eq_refl eq_refl).
  cbn [snd].
  rewrite (get_sqlite_engine_hit
             (new_session (snd (acquired fresh_world people)))
             (fst (acquired fresh_world people)) eq_refl).
  cbn [snd]. repeat split.
Qed.

End Store.

(* ------------------------------------------------------------------ *)
(** * Further properties: the fence remover *)

Module FenceEdges.
Import PyStr Tools Spec PyStrFacts Examples Fences.

Lemma lstrip_all_space (ws : str) :
  forallb isspace ws = true -> lstrip ws = [].
Proof.
  induction ws as [|c ws IH]; [reflexivity|].
  cbn [forallb lstrip]. intros H.
  apply andb_true_iff in H as [-> Hws]. exact (IH Hws).
Qed.

Lemma strip_all_space (ws : str) :
  forallb isspace ws = true -> strip ws = [].
Proof.
  intros H. unfold strip. now rewrite (lstrip_all_space ws H).
Qed.

Lemma remove_fenced (inner : str) :
  remove_markdown_code_block (fence_open ++ inner ++ fence_close)
  = strip inner.
Proof.
  unfold remove_markdown_code_block.
  assert (E : endswith (fence_open ++ inner ++ fence_close) fence_close
              = true) by (rewrite app_assoc; apply endswith_app).
  rewrite startswith_app, E. cbn [andb].
  now rewrite slice_fenced.
Qed.

(** X1.  Whatever the input, the result of
    [remove_markdown_code_block] is a contiguous part of it: the
    function cuts characters off the two ends and changes nothing in
    between, so the result is never longer than the input. *)
Theorem remove_markdown_code_block_part (sql_code : str) :
  (exists l r, sql_code = l ++ remove_markdown_code_block sql_code ++ r)
  /\ List.length (remove_markdown_code_block sql_code)
     <= List.length sql_code.
Proof.
  assert (P : exists l r,
             sql_code = l ++ remove_markdown_code_block sql_code ++ r).
  { destruct (startswith sql_code fence_open) eqn:Ho;
      [destruct (endswith sql_code fence_close) eqn:Hc|].
    - destruct (fenced_inv sql_code Ho Hc) as [inner ->].
      rewrite remove_fenced.
      destruct (strip_stripped_of inner) as (l & r & E & _).
      exists (fence_open ++ l), (r ++ fence_close).
      rewrite E at 1. now rewrite <- !app_assoc.
    - exists [], []. unfold remove_markdown_code_block.
      rewrite Ho, Hc. cbn [andb app]. now rewrite app_nil_r.
    - exists [], []. unfold remove_markdown_code_block.
      rewrite Ho. cbn [andb app]. now rewrite app_nil_r. }
  split; [exact P|].
  destruct P as (l & r & E).
  rewrite E at 2. rewrite !length_app. lia.
Qed.

(** X2.  The markers must be the very first and the very last
    characters.  One character other than a backquote after the block
    (a final newline, say) or before it, and the input comes back as it
    is, fence included. *)
Theorem stray_character_keeps_fence (s : str) (c : codepoint) :
  c <> 96%N ->
  remove_markdown_code_block (s ++ [c]) = s ++ [c]
  /\ remove_markdown_code_block (c :: s) = c :: s.
Proof.
  intros Hc. apply N.eqb_neq in Hc.
  unfold remove_markdown_code_block, endswith. split.
  - rewrite rev_app_distr. cbn. rewrite Hc. cbn [andb].
    now rewrite andb_false_r.
  - cbn. now rewrite Hc.
Qed.

Lemma stray_character_keeps_fence_witness :
  remove_markdown_code_block (fenced_sql ++ newline) = fenced_sql ++ newline
  /\ remove_markdown_code_block (32%N :: fenced_sql) = 32%N :: fenced_sql.
Proof.
  split.
  - exact (proj1 (stray_character_keeps_fence fenced_sql 10%N
                    (fun E => ltac:(discriminate E)))).
  - exact (proj2 (stray_character_keeps_fence fenced_sql 32%N
                    (fun E => ltac:(discriminate E)))).
Defined.

(** X3.  A fenced block with nothing but whitespace inside, or nothing
    at all, gives the empty string. *)
Theorem blank_block_gives_empty (ws : str) :
  forallb isspace ws = true ->
  remove_markdown_code_block (fence_open ++ ws ++ fence_close) = [].
Proof.
  intros H. rewrite remove_fenced. now apply strip_all_space.
Qed.

Lemma blank_block_gives_empty_witness :
  remove_markdown_code_block blank_block = []
  /\ remove_markdown_code_block (fence_open ++ fence_close) = [].
Proof.
  split.
  - exact (blank_block_gives_empty (newline ++ lit "  " ++ newline) eq_refl).
  - exact (blank_block_gives_empty [] eq_refl).
Defined.

End FenceEdges.

(* ------------------------------------------------------------------ *)
(** * Further properties: the dataset describer *)

Module DescriberEdges.
Import PyStr Tools Spec PyStrFacts DescribeFacts Examples.

Lemma first_match_clarification (q : str) :
  first_match q = Clarification
  <-> (forall kw, In kw keywords -> mentions q kw = false).
Proof.
  unfold first_match, keywords, keyword_rules.
  cbn [find rule_matches existsb fst snd flat_map app In].
  split.
  - intros H.
    destruct (mentions q (lit "describe")) eqn:E1; [discriminate H|].
    destruct (mentions q (lit "statistics")) eqn:E2; [discriminate H|].
    destruct (mentions q (lit "columns")) eqn:E3; [discriminate H|].
    destruct (mentions q (lit "fields")) eqn:E4; [discriminate H|].
    destruct (mentions q (lit "shape")) eqn:E5; [discriminate H|].
    destruct (mentions q (lit "size")) eqn:E6; [discriminate H|].
    destruct (mentions q (lit "sample")) eqn:E7; [discriminate H|].
    intros kw [<- | [<- | [<- | [<- | [<- | [<- | [<- | []]]]]]]];
      assumption.
  - intros H.
    rewrite (H (lit "describe")), (H (lit "statistics")),
      (H (lit "columns")), (H (lit "fields")), (H (lit "shape")),
      (H (lit "size")), (H (lit "sample")) by auto 10.
    reflexivity.
Qed.

(** More text around a question keeps the keywords it mentions. *)
Lemma mentions_mono (a q b kw : str) :
  mentions q kw = true -> mentions (a ++ q ++ b) kw = true.
Proof.
  unfold mentions. intros H.
  apply str_in_inv in H as (x & y & E).
  rewrite !lower_app, E.
  replace (lower a ++ (x ++ kw ++ y) ++ lower b)
    with ((lower a ++ x) ++ kw ++ (y ++ lower b))
    by now rewrite <- !app_assoc.
  apply str_in_app.
Qed.

(** Each item of a joined list is found in the result. *)
Lemma join_has_item (sep c : str) (items : list str) :
  In c items -> exists a b, join sep items = a ++ c ++ b.
Proof.
  induction items as [|x [|y rest] IH]; intros Hin.
  - destruct Hin.
  - destruct Hin as [<- | []]. exists [], []. cbn [join app].
    now rewrite app_nil_r.
  - change (join sep (x :: y :: rest))
      with (x ++ sep ++ join sep (y :: rest)).
    destruct Hin as [<- | Hin].
    + now exists [], (sep ++ join sep (y :: rest)).
    + destruct (IH Hin) as (a & b & ->).
      exists (x ++ sep ++ a), b. now rewrite <- !app_assoc.
Qed.

Section WithPandas.
Context {pandas : Pandas}.

Lemma answer_clarification_inv (s : SessionState.t) (b : branch) :
  answer s b = Returned clarification -> b = Clarification.
Proof.
  intros E.
  apply (f_equal (fun o => match o with
                           | Returned text => firstn 13 text
                           | Raised _ => []
                           end)) in E.
  destruct b; try reflexivity; exfalso; revert E; unfold answer;
    destruct (SessionState.df s) as [d|]; cbn [deref obind];
    try destruct (describe_to_html d); cbn [obind];
    vm_compute; discriminate.
Qed.

(** X4.  The clarification message is the answer exactly when the
    lower-cased question contains none of the seven keywords: a
    question with a keyword never gets it, whatever the session holds. *)
Theorem clarification_iff_no_keyword (s : SessionState.t) (q : str) :
  describe_dataset s q = Returned clarification
  <-> (forall kw, In kw keywords -> mentions q kw = false).
Proof.
  rewrite describe_dataset_answer, <- first_match_clarification.
  split.
  - apply answer_clarification_inv.
  - now intros ->.
Qed.

(** X5.  Before a dataset is in the session ([df] slot empty), every
    question that mentions a keyword makes [describe_dataset] raise
    AttributeError: it reaches for the frame's attributes without a
    check. *)
Theorem keyword_without_dataset_raises
        (s : SessionState.t) (q kw : str) :
  SessionState.df s = None ->
  In kw keywords ->
  mentions q kw = true ->
  describe_dataset s q = Raised AttributeError.
Proof.
  intros Hdf Hin Hm.
  assert (Hb : first_match q <> Clarification).
  { intros E. rewrite first_match_clarification in E.
    rewrite (E kw Hin) in Hm. discriminate Hm. }
  rewrite describe_dataset_answer.
  destruct (first_match q); try (now elim Hb);
    unfold answer; now rewrite Hdf.
Qed.

(** X6.  A question about "columns" or "fields" (and not about
    "describe" or "statistics") is answered with the column labels
    joined by ", "; every label of the frame is found in the answer,
    and a frame without columns gets the bare lead-in. *)
Theorem column_listing_names_every_column
        (s : SessionState.t) (d : DataFrame.t) (q : str) :
  SessionState.df s = Some d ->
  mentions q (lit "columns") = true \/ mentions q (lit "fields") = true ->
  mentions q (lit "describe") = false ->
  mentions q (lit "statistics") = false ->
  exists text,
    describe_dataset s q = Returned text
    /\ text = lit "The dataset contains the following columns: "
              ++ join (lit ", ") (DataFrame.columns d)
    /\ (forall c, In c (DataFrame.columns d) -> str_in c text = true)
    /\ (DataFrame.columns d = [] ->
        text = lit "The dataset contains the following columns: ").
Proof.
  intros Hdf Hkw Hd Hs.
  eexists. split; [|split; [reflexivity|split]].
  - unfold describe_dataset, mentions in *. rewrite Hd, Hs. cbn [orb].
    replace (str_in (lit "columns") (lower q)
             || str_in (lit "fields") (lower q)) with true
      by (destruct Hkw as [-> | ->]; now rewrite ?orb_true_r).
    now rewrite Hdf.
  - intros c Hin.
    destruct (join_has_item (lit ", ") c _ Hin) as (a & b & ->).
    rewrite app_assoc. apply str_in_app.
  - intros ->. cbn [join]. apply app_nil_r.
Qed.

End WithPandas.

(** X7.  Text added before or after a question never moves the answer to
    a later branch: the branch of the longer question comes at the same
    place or earlier in the order of the checks.  A question quoted
    inside a longer message can so lose its answer to an earlier
    keyword, never to a later one. *)
Theorem more_text_earlier_branch (a q b : str) :
  rank (first_match (a ++ q ++ b)) <= rank (first_match q).
Proof.
  pose proof (mentions_mono a q b) as M.
  unfold first_match, keyword_rules.
  cbn [find rule_matches existsb fst snd].
  set (q' := a ++ q ++ b) in *.
  repeat (match goal with
          | |- context [mentions q' ?kw] =>
              let E := fresh "E" in
              let F := fresh "F" in
              destruct (mentions q' kw) eqn:E;
              [ | destruct (mentions q kw) eqn:F;
                  [rewrite (M kw F) in E; discriminate E|] ]
          end; cbn [orb]);
    repeat match goal with
           | |- context [mentions q ?kw] => destruct (mentions q kw)
           end;
    cbn; lia.
Qed.

Lemma clarification_iff_no_keyword_witness :
  describe_dataset (pandas := plain_pandas) loaded vague_question
  = Returned clarification.
Proof.
  refine (proj2 (clarification_iff_no_keyword (pandas := plain_pandas)
                   loaded vague_question) _).
  intros kw [<- | [<- | [<- | [<- | [<- | [<- | [<- | []]]]]]]]; reflexivity.
Defined.

Lemma keyword_without_dataset_raises_witness :
  describe_dataset (pandas := plain_pandas) SessionState.initial
    describe_question
  = Raised AttributeError.
Proof.
  exact (keyword_without_dataset_raises (pandas := plain_pandas)
           SessionState.initial describe_question (lit "describe")
           eq_refl (or_introl eq_refl) eq_refl).
Defined.

Lemma column_listing_names_every_column_witness :
  exists text,
    describe_dataset (pandas := plain_pandas) loaded columns_question
    = Returned text
    /\ text = lit "The dataset contains the following columns: "
              ++ join (lit ", ") (DataFrame.columns people)
    /\ (forall c, In c (DataFrame.columns people) -> str_in c text = true)
    /\ (DataFrame.columns people = [] ->
        text = lit "The dataset contains the following columns: ").
Proof.
  exact (column_listing_names_every_column (pandas := plain_pandas)
           loaded people columns_question
           eq_refl (or_intror eq_refl) eq_refl eq_refl).
Defined.

Example column_listing_people :
  describe_dataset (pandas := plain_pandas) loaded columns_question
  = Returned (lit "The dataset contains the following columns: name, age").
Proof. reflexivity. Qed.

End DescriberEdges.

(* ------------------------------------------------------------------ *)
(** * Further properties: the tabular store *)

Module StoreEdges.
Import PyStr Tools Spec PyStrFacts EngineFacts DescribeFacts Examples.

Lemma name_eqb_other (x name n : str) :
  name_eqb name n = false -> name_eqb x n = true -> name_eqb x name = false.
Proof.
  intros Hn Hx. destruct (name_eqb x name) eqn:E; [|reflexivity].
  rewrite name_eqb_sym in E.
  now rewrite (name_eqb_trans name x n E Hx) in Hn.
Qed.

Lemma find_table_drop_other (name n : str) (db : Database) :
  name_eqb name n = false ->
  find_table name (drop_table_if_exists n db) = find_table name db.
Proof.
  intros Hn. unfold find_table, drop_table_if_exists.
  induction db as [|[x t] db IH]; [reflexivity|].
  cbn [filter find fst].
  destruct (name_eqb x n) eqn:Exn; cbn [negb].
  - rewrite (name_eqb_other x name n Hn Exn). exact IH.
  - cbn [find fst]. destruct (name_eqb x name); [reflexivity | exact IH].
Qed.

Lemma find_table_app_other (name n : str) (t : Table) (db : Database) :
  name_eqb name n = false ->
  find_table name (db ++ [(n, t)]) = find_table name db.
Proof.
  intros Hn. unfold find_table.
  induction db as [|[x u] db IH]; cbn [app find fst].
  - now rewrite name_eqb_sym, Hn.
  - destruct (name_eqb x name); [reflexivity | exact IH].
Qed.

Lemma tables_named_drop (n : str) (db : Database) :
  tables_named n (drop_table_if_exists n db) = [].
Proof.
  unfold tables_named, drop_table_if_exists.
  induction db as [|[x t] db IH]; [reflexivity|].
  cbn [filter fst]. destruct (name_eqb x n) eqn:E; cbn [negb]; [exact IH|].
  cbn [filter fst]. now rewrite E.
Qed.

Lemma drop_table_twice (n : str) (db : Database) :
  drop_table_if_exists n (drop_table_if_exists n db)
  = drop_table_if_exists n db.
Proof.
  unfold drop_table_if_exists.
  induction db as [|[x t] db IH]; [reflexivity|].
  cbn [filter fst]. destruct (name_eqb x n) eqn:E; cbn [negb]; [exact IH|].
  cbn [filter fst]. rewrite E. cbn [negb]. now rewrite IH.
Qed.

(** X8.  When the CSV cannot be loaded, [get_sqlite_engine] raises the
    loader's exception before it has assigned anything: session state,
    resource cache and database file are as before, no engine was
    created, and the next call tries the load again. *)
Theorem load_failure_changes_nothing (w : World) (x : exn) :
  resource_cache w = None ->
  SessionState.engine (session_state w) = None ->
  csv w = Raised x ->
  exists w',
    get_sqlite_engine w = (Raised x, w')
    /\ session_state w' = session_state w
    /\ resource_cache w' = None
    /\ database w' = database w
    /\ engines_created w' = engines_created w
    /\ trace w' = trace w ++ [LoadCsv]
    /\ fst (get_sqlite_engine w') = Raised x
    /\ trace (snd (get_sqlite_engine w')) = trace w ++ [LoadCsv; LoadCsv].
Proof.
  intros Hc Hs Hx. exists (logged w LoadCsv).
  rewrite (get_sqlite_engine_load_fails w x Hc Hs Hx).
  rewrite (get_sqlite_engine_load_fails (logged w LoadCsv) x Hc Hs Hx).
  cbn [logged session_state resource_cache database engines_created trace
       fst snd].
  rewrite <- app_assoc. repeat split. exact Hc.
Qed.

Lemma load_failure_changes_nothing_witness :
  exists w',
    get_sqlite_engine failing_world = (Raised LoadError, w')
    /\ session_state w' = session_state failing_world
    /\ resource_cache w' = None
    /\ database w' = database failing_world
    /\ engines_created w' = engines_created failing_world
    /\ trace w' = trace failing_world ++ [LoadCsv]
    /\ fst (get_sqlite_engine w') = Raised LoadError
    /\ trace (snd (get_sqlite_engine w'))
       = trace failing_world ++ [LoadCsv; LoadCsv].
Proof.
  exact (load_failure_changes_nothing failing_world LoadError
           eq_refl eq_refl eq_refl).
Defined.



(** X10.  No call of [get_sqlite_engine] touches a table that SQLite
    does not take for [db]: whatever the call does and however it ends,
    a table under a name that differs from [db] by more than the case
    of its letters is found afterwards as it was before. *)
Theorem other_tables_survive (w : World) (name : str) :
  name_eqb name db_name = false ->
  find_table name (database (snd (get_sqlite_engine w)))
  = find_table name (database w).
Proof.
  intros Hn.
  destruct (resource_cache w) as [e0|] eqn:Hc.
  { now rewrite (get_sqlite_engine_hit w e0 Hc). }
  destruct (SessionState.engine (session_state w)) as [e0|] eqn:Hs.
  { now rewrite (get_sqlite_engine_uses_slot w e0 Hc Hs). }
  destruct (csv w) as [d|x] eqn:Hd.
  2:{ now rewrite (get_sqlite_engine_load_fails w x Hc Hs Hd). }
  destruct (storing w d) as [|x left] eqn:Hst.
  - rewrite (get_sqlite_engine_loads w d Hc Hs Hd Hst).
    unfold acquired. cbn [snd database].
    rewrite find_table_app_other by exact Hn.
    now rewrite !find_table_drop_other by exact Hn.
  - rewrite (get_sqlite_engine_refused w d x left Hc Hs Hd Hst).
    unfold refused_world. cbn [snd database].
    destruct left as [t|].
    + rewrite find_table_app_other by exact Hn.
      now rewrite !find_table_drop_other by exact Hn.
    + rewrite app_nil_r.
      now rewrite !find_table_drop_other by exact Hn.
Qed.

Lemma other_tables_survive_witness :
  find_table (lit "notes") (database (snd (get_sqlite_engine world_with_notes)))
  = find_table (lit "notes") (database world_with_notes).
Proof.
  exact (other_tables_survive world_with_notes (lit "notes") eq_refl).
Defined.

(** X11.  Once a first call has returned, the database has exactly one
    table that SQLite takes for [db], and looking it up gives back the
    frame: the column labels and the rows of the loaded CSV, in order.
    The file is the old one without the tables named [db] in any case
    of the letters, with the new table at the end; the second DROP of
    the source adds nothing to the first. *)
Theorem table_is_the_frame (w w' : World) (d : DataFrame.t) (e : Engine) :
  resource_cache w = None ->
  SessionState.engine (session_state w) = None ->
  csv w = Returned d ->
  get_sqlite_engine w = (Returned e, w') ->
  find_table db_name (database w')
  = Some (mkTable (DataFrame.columns d) (DataFrame.rows d))
  /\ List.length (tables_named db_name (database w')) = 1
  /\ database w'
     = drop_table_if_exists db_name (database w)
       ++ [(db_name, mkTable (DataFrame.columns d) (DataFrame.rows d))].
Proof.
  intros Hc Hs Hd H.
  destruct (get_sqlite_engine_returned w w' d e Hc Hs Hd H) as (_ & _ & ->).
  unfold acquired. cbn [snd database].
  rewrite drop_table_twice.
  split; [|split; [|reflexivity]].
  - apply find_table_new, find_table_drop.
  - unfold tables_named. rewrite filter_app.
    fold (tables_named db_name (drop_table_if_exists db_name (database w))).
    rewrite tables_named_drop. reflexivity.
Qed.

Lemma table_is_the_frame_witness :
  find_table db_name (database (snd (get_sqlite_engine world_with_notes)))
  = Some (mkTable (DataFrame.columns people) (DataFrame.rows people))
  /\ List.length
       (tables_named db_name
          (database (snd (get_sqlite_engine world_with_notes)))) = 1
  /\ database (snd (get_sqlite_engine world_with_notes))
     = drop_table_if_exists db_name (database world_with_notes)
       ++ [(db_name,
            mkTable (DataFrame.columns people) (DataFrame.rows people))].
Proof.
  refine (table_is_the_frame world_with_notes
            (snd (get_sqlite_engine world_with_notes)) people
            (mkEngine 0 db_url) eq_refl eq_refl eq_refl _).
  vm_compute. reflexivity.
Defined.

(** X12.  With an engine already in the session's engine slot, and
    nothing cached, the call loads nothing: it returns the slot's
    engine and stores it in the resource cache; session state, database
    and trace are untouched, so [df] and [columns] stay as they were. *)
Theorem filled_slot_skips_load (w : World) (e0 : Engine) :
  resource_cache w = None ->
  SessionState.engine (session_state w) = Some e0 ->
  exists w',
    get_sqlite_engine w = (Returned e0, w')
    /\ resource_cache w' = Some e0
    /\ session_state w' = session_state w
    /\ database w' = database w
    /\ trace w' = trace w.
Proof.
  intros Hc Hs. exists (cached w e0).
  rewrite (get_sqlite_engine_uses_slot w e0 Hc Hs). repeat split.
Qed.

Lemma filled_slot_skips_load_witness :
  exists w',
    get_sqlite_engine filled_slot_world = (Returned own_engine, w')
    /\ resource_cache w' = Some own_engine
    /\ session_state w' = session_state filled_slot_world
    /\ database w' = database filled_slot_world
    /\ trace w' = trace filled_slot_world.
Proof.
  exact (filled_slot_skips_load filled_slot_world own_engine eq_refl eq_refl).
Defined.

(** X13.  An engine returned by a call that found the resource cache
    empty is afterwards both in the resource cache and in the session's
    engine slot. *)
Theorem returned_engine_is_recorded (w w' : World) (e : Engine) :
  resource_cache w = None ->
  get_sqlite_engine w = (Returned e, w') ->
  resource_cache w' = Some e
  /\ SessionState.engine (session_state w') = Some e.
Proof.
  intros Hc H.
  destruct (SessionState.engine (session_state w)) as [e0|] eqn:Hs.
  - rewrite (get_sqlite_engine_uses_slot w e0 Hc Hs) in H.
    injection H as <- <-. split; [reflexivity | exact Hs].
  - destruct (csv w) as [d | x] eqn:Hd.
    + destruct (get_sqlite_engine_returned w w' d e Hc Hs Hd H)
        as (_ & -> & ->).
      split; reflexivity.
    + rewrite (get_sqlite_engine_load_fails w x Hc Hs Hd) in H.
      discriminate H.
Qed.

Lemma returned_engine_is_recorded_witness :
  resource_cache (snd (get_sqlite_engine fresh_world))
  = Some (mkEngine 0 db_url)
  /\ SessionState.engine (session_state (snd (get_sqlite_engine fresh_world)))
     = Some (mkEngine 0 db_url).
Proof.
  refine (returned_engine_is_recorded fresh_world
            (snd (get_sqlite_engine fresh_world)) (mkEngine 0 db_url)
            eq_refl _).
  vm_compute. reflexivity.
Defined.

Section WithPandas.
Context {pandas : Pandas}.

(** X14.  The two tools agree on the size of the data: once a first
    call of [get_sqlite_engine] has returned, the row count that
    [describe_dataset] prints for a shape question is the count of rows
    of the table [db], and the column count is the length of the
    recorded column list. *)
Theorem describe_agrees_with_table
        (w w' : World) (d : DataFrame.t) (e : Engine) (q : str) :
  resource_cache w = None ->
  SessionState.engine (session_state w) = None ->
  csv w = Returned d ->
  get_sqlite_engine w = (Returned e, w') ->
  mentions q (lit "shape") = true \/ mentions q (lit "size") = true ->
  (forall kw,
      In kw [lit "describe"; lit "statistics"; lit "columns"; lit "fields"] ->
      mentions q kw = false) ->
  exists n cols,
    select_count db_name (database w') = Returned n
    /\ SessionState.columns (session_state w') = Some cols
    /\ describe_dataset (session_state w') q
       = Returned (lit "The dataset has " ++ format_int n
                   ++ lit " rows and " ++ format_int (List.length cols)
                   ++ lit " columns.").
Proof.
  intros Hc Hs Hd H Hkw Hnone.
  destruct (get_sqlite_engine_returned w w' d e Hc Hs Hd H) as (_ & _ & ->).
  exists (List.length (DataFrame.rows d)), (DataFrame.columns d).
  unfold acquired.
  cbn [snd database session_state SessionState.columns].
  split; [|split; [reflexivity|]].
  - unfold select_count.
    rewrite find_table_new by apply find_table_drop. reflexivity.
  - rewrite describe_dataset_answer.
    replace (first_match q) with ShapeCounts; [reflexivity|].
    unfold first_match, keyword_rules, mentions in *.
    cbn [find rule_matches existsb fst snd]. unfold mentions.
    rewrite (Hnone (lit "describe")), (Hnone (lit "statistics")),
      (Hnone (lit "columns")), (Hnone (lit "fields"))
      by (cbn [In]; auto 10).
    cbn [orb].
    destruct Hkw as [-> | ->]; now rewrite ?orb_true_r.
Qed.

End WithPandas.

Lemma describe_agrees_with_table_witness :
  exists n cols,
    select_count db_name (database (snd (get_sqlite_engine fresh_world)))
    = Returned n
    /\ SessionState.columns
         (session_state (snd (get_sqlite_engine fresh_world)))
       = Some cols
    /\ describe_dataset (pandas := plain_pandas)
         (session_state (snd (get_sqlite_engine fresh_world))) size_question
       = Returned (lit "The dataset has " ++ format_int n
                   ++ lit " rows and " ++ format_int (List.length cols)
                   ++ lit " columns.").
Proof.
  refine (describe_agrees_with_table (pandas := plain_pandas)
            fresh_world (snd (get_sqlite_engine fresh_world)) people
            (mkEngine 0 db_url) size_question
            eq_refl eq_refl eq_refl _ (or_intror eq_refl) _).
  - vm_compute. reflexivity.
  - intros kw [<- | [<- | [<- | [<- | []]]]]; reflexivity.
Defined.

End StoreEdges.
